(** * Contact Form API ([main.py]): the submit flow

    A shallow embedding of the single endpoint [POST /api/contact] and of the
    two mail helpers it calls.  Python's exceptions, the calls to
    [aiosmtplib.send] and the [print] calls are threaded through a small
    state-and-exception monad; the mail relay itself is an oracle supplied by
    the environment, so that every statement holds for every behaviour of the
    relay.

    Python [str] values are represented by their UTF-8 bytes. *)

From Stdlib Require Import ZArith String List Lia.
From stdpp Require Import base strings gmap pretty.

Local Open Scope string_scope.
Local Open Scope Z_scope.

(** ** Data *)

(** JSON values: the parsed request body and the response content. *)
#[warnings="-register-all"] Inductive json : Type :=
| JNull
| JBool (b : bool)
| JInt (n : Z)
| JStr (s : string)
| JArr (items : list json)
| JObj (members : list (string * json)).

(** [class ContactForm(BaseModel)]: the validated submission. *)
Record ContactForm : Type := {
  name : string;
  email : string;
  company : string;
  subject : string;
  message : string
}.

(** The [EMAIL_CONFIG] dict.  [os.getenv] without a default yields [None] for
    an unset variable, hence the options. *)
Record email_config : Type := {
  hostname : string;
  port : Z;
  username : option string;
  password : option string;
  use_tls : bool
}.

(** [MIMEText(text, subtype)] and [MIMEMultipart(subtype)].  Assigning
    [message[key] = value] appends a header and never replaces one; the legacy
    [email] policy stores the value as given, [None] included. *)
Record MIMEText : Type := {
  text_payload : string;
  text_subtype : string
}.

Record MIMEMultipart : Type := {
  multipart_subtype : string;
  headers : list (string * option string);
  parts : list MIMEText
}.

(** One call of [aiosmtplib.send] with its keyword arguments. *)
Record smtp_call : Type := {
  sent_message : MIMEMultipart;
  to_hostname : string;
  to_port : Z;
  with_start_tls : bool;
  with_username : option string;
  with_password : option string
}.

(** What [aiosmtplib.send] may raise: an exception class (a subclass of
    [Exception]) and the text [str(e)] gives. *)
Record transport_error : Type := {
  error_class : string;
  error_text : string
}.

Inductive exception : Type :=
| HTTPException (status_code : Z) (detail : string)
| TransportError (err : transport_error).

(** Everything the module reads from outside: the two module-level globals,
    the rendering of [datetime.now()], the mail relay (its answer may depend
    on the calls made so far and on the call at hand; [None] means the message
    was accepted) and the address check behind pydantic's [EmailStr] (the
    normalised address, or [None] for invalid syntax). *)
Record environment : Type := {
  EMAIL_CONFIG : email_config;
  RECIPIENT_EMAIL : option string;
  datetime_now : string;
  smtp_relay : list smtp_call -> smtp_call -> option transport_error;
  validate_email : string -> option string
}.

(** The observable effects of a request: the calls made to the relay, in
    order, and the lines printed. *)
Record world : Type := {
  outbox : list smtp_call;
  stdout : list string
}.

(** ** The effect monad *)

Inductive result (A : Type) : Type :=
| Return (a : A)
| Raise (e : exception).

Arguments Return {A} a.
Arguments Raise {A} e.

Definition IO (A : Type) : Type := world -> result A * world.

Section Effects.
Context {A B : Type}.

Definition ret (a : A) : IO A := fun w => (Return a, w).

Definition raise (e : exception) : IO A := fun w => (Raise e, w).

Definition bind (m : IO A) (k : A -> IO B) : IO B :=
  fun w =>
    match m w with
    | (Return a, w') => k a w'
    | (Raise e, w') => (Raise e, w')
    end.

(** [try: body / except Exception as e: handler(e)].  Every exception of the
    model is an instance of [Exception], [HTTPException] included (it
    derives from [Exception] in Starlette), so the handler sees them all. *)
Definition try_except (body : IO A) (handler : exception -> IO A) : IO A :=
  fun w =>
    match body w with
    | (Return a, w') => (Return a, w')
    | (Raise e, w') => handler e w'
    end.
End Effects.

Notation "x <- m ;; k" := (bind m (fun x => k))
  (at level 100, m at next level, right associativity).
Notation "m ;;; k" := (bind m (fun _ => k))
  (at level 100, right associativity).

Definition write_line (line : string) (w : world) : world :=
  {| outbox := outbox w; stdout := stdout w ++ [line] |}.

Definition record_call (call : smtp_call) (w : world) : world :=
  {| outbox := outbox w ++ [call]; stdout := stdout w |}.

Definition print (line : string) : IO unit :=
  fun w => (Return tt, write_line line w).

(** [await aiosmtplib.send(...)]: the call is recorded, then the relay
    decides. *)
Definition aiosmtplib_send (E : environment) (call : smtp_call) : IO unit :=
  fun w =>
    match smtp_relay E (outbox w) call with
    | None => (Return tt, record_call call w)
    | Some err => (Raise (TransportError err), record_call call w)
    end.

(** ** Python helpers *)

(** Truth value of a [str | None]. *)
Definition truthy (v : option string) : bool :=
  match v with
  | Some (String _ _) => true
  | _ => false
  end.

(** [all([...])] over such values. *)
Definition all (vs : list (option string)) : bool := forallb truthy vs.

(** [a or b] on strings. *)
Definition py_or (a b : string) : string :=
  match a with
  | "" => b
  | _ => a
  end.

(** [str(e)]; Starlette renders an [HTTPException] as status, colon,
    detail. *)
Definition str (e : exception) : string :=
  match e with
  | HTTPException sc d => pretty sc +:+ ": " +:+ d
  | TransportError err => error_text err
  end.

Definition dq : string := String (Ascii.ascii_of_nat 34) EmptyString.
Definition nl : string := String (Ascii.ascii_of_nat 10) EmptyString.

Definition new_multipart (subtype : string) : MIMEMultipart :=
  {| multipart_subtype := subtype; headers := []; parts := [] |}.

Definition set_header (key : string) (value : option string)
    (m : MIMEMultipart) : MIMEMultipart :=
  {| multipart_subtype := multipart_subtype m;
     headers := headers m ++ [(key, value)];
     parts := parts m |}.

Definition attach (part : MIMEText) (m : MIMEMultipart) : MIMEMultipart :=
  {| multipart_subtype := multipart_subtype m;
     headers := headers m;
     parts := parts m ++ [part] |}.

(** [message[key]]: the first header of that name, if any; header names are
    compared without regard to the case of their ASCII letters. *)
Definition lower_ascii (c : Ascii.ascii) : Ascii.ascii :=
  let n := Ascii.nat_of_ascii c in
  if ((65 <=? n) && (n <=? 90))%nat then Ascii.ascii_of_nat (n + 32) else c.

Fixpoint lower (s : string) : string :=
  match s with
  | EmptyString => EmptyString
  | String c rest => String (lower_ascii c) (lower rest)
  end.

Definition get_header (key : string) (m : MIMEMultipart)
    : option (option string) :=
  snd <$> find (fun kv => bool_decide (lower (fst kv) = lower key)) (headers m).

(** The keyword arguments both helpers pass to [aiosmtplib.send]. *)
Definition send_call (E : environment) (m : MIMEMultipart) : smtp_call :=
  {| sent_message := m;
     to_hostname := hostname (EMAIL_CONFIG E);
     to_port := port (EMAIL_CONFIG E);
     with_start_tls := use_tls (EMAIL_CONFIG E);
     with_username := username (EMAIL_CONFIG E);
     with_password := password (EMAIL_CONFIG E) |}.

(** ** [send_notification_email] *)

Definition notification_html (now : string) (form_data : ContactForm) : string :=
  String.concat ""
  [ nl;
    "        <html>"; nl;
    "        <body style="; dq; "font-family: Arial, sans-serif; line-height: 1.6; color: #333;"; dq; ">"; nl;
    "            <div style="; dq; "max-width: 600px; margin: 0 auto; padding: 20px;"; dq; ">"; nl;
    "                <h2 style="; dq; "color: #7c3aed; border-bottom: 2px solid #7c3aed; padding-bottom: 10px;"; dq; ">"; nl;
    "                    📬 New Contact Form Submission"; nl;
    "                </h2>"; nl;
    "                "; nl;
    "                <div style="; dq; "background: #f8fafc; padding: 20px; border-radius: 8px; margin: 20px 0;"; dq; ">"; nl;
    "                    <table style="; dq; "width: 100%; border-collapse: collapse;"; dq; ">"; nl;
    "                        <tr>"; nl;
    "                            <td style="; dq; "padding: 8px 0; font-weight: bold; color: #4a5568;"; dq; ">Name:</td>"; nl;
    "                            <td style="; dq; "padding: 8px 0;"; dq; ">"; form_data.(name); "</td>"; nl;
    "                        </tr>"; nl;
    "                        <tr>"; nl;
    "                            <td style="; dq; "padding: 8px 0; font-weight: bold; color: #4a5568;"; dq; ">Email:</td>"; nl;
    "                            <td style="; dq; "padding: 8px 0;"; dq; "><a href="; dq; "mailto:"; form_data.(email); dq; ">"; form_data.(email); "</a></td>"; nl;
    "                        </tr>"; nl;
    "                        <tr>"; nl;
    "                            <td style="; dq; "padding: 8px 0; font-weight: bold; color: #4a5568;"; dq; ">Company:</td>"; nl;
    "                            <td style="; dq; "padding: 8px 0;"; dq; ">"; py_or form_data.(company) "Not specified"; "</td>"; nl;
    "                        </tr>"; nl;
    "                        <tr>"; nl;
    "                            <td style="; dq; "padding: 8px 0; font-weight: bold; color: #4a5568;"; dq; ">Subject:</td>"; nl;
    "                            <td style="; dq; "padding: 8px 0;"; dq; "><span style="; dq; "background: #7c3aed; color: white; padding: 4px 8px; border-radius: 4px; font-size: 12px;"; dq; ">"; form_data.(subject); "</span></td>"; nl;
    "                        </tr>"; nl;
    "                    </table>"; nl;
    "                </div>"; nl;
    "                "; nl;
    "                <div style="; dq; "background: white; border: 1px solid #e2e8f0; border-radius: 8px; padding: 20px; margin: 20px 0;"; dq; ">"; nl;
    "                    <h3 style="; dq; "margin-top: 0; color: #2d3748;"; dq; ">Message:</h3>"; nl;
    "                    <p style="; dq; "white-space: pre-line; line-height: 1.6;"; dq; ">"; form_data.(message); "</p>"; nl;
    "                </div>"; nl;
    "                "; nl;
    "                <div style="; dq; "background: #edf2f7; padding: 15px; border-radius: 8px; margin: 20px 0; text-align: center;"; dq; ">"; nl;
    "                    <p style="; dq; "margin: 0; font-size: 14px; color: #4a5568;"; dq; ">"; nl;
    "                        📅 Submitted on "; now; nl;
    "                    </p>"; nl;
    "                    <p style="; dq; "margin: 10px 0 0 0; font-size: 14px;"; dq; ">"; nl;
    "                        <a href="; dq; "mailto:"; form_data.(email); "?subject=Re: "; form_data.(subject); dq; " "; nl;
    "                           style="; dq; "background: #7c3aed; color: white; padding: 8px 16px; text-decoration: none; border-radius: 4px; display: inline-block;"; dq; ">"; nl;
    "                            📧 Reply to "; form_data.(name); nl;
    "                        </a>"; nl;
    "                    </p>"; nl;
    "                </div>"; nl;
    "            </div>"; nl;
    "        </body>"; nl;
    "        </html>"; nl;
    "        " ]
.

Definition notification_message (E : environment) (form_data : ContactForm)
    : MIMEMultipart :=
  attach {| text_payload := notification_html (datetime_now E) form_data;
            text_subtype := "html" |}
    (set_header "Reply-To" (Some form_data.(email))
    (set_header "To" (RECIPIENT_EMAIL E)
    (set_header "From" (username (EMAIL_CONFIG E))
    (set_header "Subject" (Some ("🔔 New Contact Form: " +:+ form_data.(subject)))
    (new_multipart "alternative"))))).

Definition configuration_error : exception :=
  HTTPException 500
    "Email configuration is incomplete. Check your environment variables.".

Definition send_notification_email (E : environment) (form_data : ContactForm)
    : IO bool :=
  if negb (all [username (EMAIL_CONFIG E); password (EMAIL_CONFIG E);
                RECIPIENT_EMAIL E])
  then raise configuration_error
  else
    try_except
      (aiosmtplib_send E (send_call E (notification_message E form_data)) ;;;
       ret true)
      (fun e =>
         print ("Email sending failed: " +:+ str e) ;;;
         ret false).

(** ** [send_confirmation_email] *)

Definition confirmation_html (form_data : ContactForm) : string :=
  String.concat ""
  [ nl;
    "        <html>"; nl;
    "        <body style="; dq; "font-family: Arial, sans-serif; line-height: 1.6; color: #333;"; dq; ">"; nl;
    "            <div style="; dq; "max-width: 600px; margin: 0 auto; padding: 20px;"; dq; ">"; nl;
    "                <h2 style="; dq; "color: #10b981;"; dq; ">✅ Thanks for reaching out, "; form_data.(name); "!</h2>"; nl;
    "                "; nl;
    "                <p>I've received your message about <strong>"; dq; form_data.(subject); dq; "</strong> and will get back to you soon.</p>"; nl;
    "                "; nl;
    "                <div style="; dq; "background: #f0f9ff; border-left: 4px solid #3b82f6; padding: 15px; margin: 20px 0;"; dq; ">"; nl;
    "                    <h4 style="; dq; "margin-top: 0;"; dq; ">Your message:</h4>"; nl;
    "                    <p style="; dq; "white-space: pre-line;"; dq; ">"; form_data.(message); "</p>"; nl;
    "                </div>"; nl;
    "                "; nl;
    "                <p>I typically respond within <strong>24-48 hours</strong>.</p>"; nl;
    "                "; nl;
    "                <p>Best regards! 🚀</p>"; nl;
    "            </div>"; nl;
    "        </body>"; nl;
    "        </html>"; nl;
    "        " ]
.

Definition confirmation_message (E : environment) (form_data : ContactForm)
    : MIMEMultipart :=
  attach {| text_payload := confirmation_html form_data;
            text_subtype := "html" |}
    (set_header "To" (Some form_data.(email))
    (set_header "From" (username (EMAIL_CONFIG E))
    (set_header "Subject" (Some "✅ Thanks for reaching out!")
    (new_multipart "alternative")))).

Definition send_confirmation_email (E : environment) (form_data : ContactForm)
    : IO bool :=
  try_except
    (aiosmtplib_send E (send_call E (confirmation_message E form_data)) ;;;
     ret true)
    (fun e =>
       print ("Confirmation email failed: " +:+ str e) ;;;
       ret false).

(** ** [submit_contact_form] *)

Definition notification_error : exception :=
  HTTPException 500 "Failed to send notification email. Please try again.".

Definition unexpected_error : exception :=
  HTTPException 500 "An unexpected error occurred. Please try again later.".

(** The dict the handler returns. *)
Definition success_body (notification_sent confirmation_sent : bool) : json :=
  JObj [("success", JBool true);
        ("message", JStr "Your message has been sent successfully!");
        ("details", JObj [("notification_sent", JBool notification_sent);
                          ("confirmation_sent", JBool confirmation_sent)])].

Definition submit_contact_form (E : environment) (form_data : ContactForm)
    : IO json :=
  try_except
    (notification_sent <- send_notification_email E form_data ;;
     (if negb notification_sent then raise notification_error else ret tt) ;;;
     confirmation_sent <- send_confirmation_email E form_data ;;
     ret (success_body notification_sent confirmation_sent))
    (fun e =>
       print ("Unexpected error: " +:+ str e) ;;;
       raise unexpected_error).

(** ** The framework around the handler *)

(** Pydantic's validation of the parsed body against [ContactForm].  A [str]
    field takes a JSON string of any length, the empty one included; a field
    without default must be present; [EmailStr] further runs the address
    check.  Keys the model does not declare are ignored. *)
Definition field_str (body : gmap string json) (key : string) : option string :=
  match body !! key with
  | Some (JStr s) => Some s
  | _ => None
  end.

Definition field_str_default (body : gmap string json) (key default : string)
    : option string :=
  match body !! key with
  | None => Some default
  | Some (JStr s) => Some s
  | Some _ => None
  end.

Definition field_EmailStr (E : environment) (body : gmap string json)
    (key : string) : option string :=
  match body !! key with
  | Some (JStr s) => validate_email E s
  | _ => None
  end.

Inductive validation : Type :=
| Valid (form_data : ContactForm)
| Invalid (locs : list string).

Definition error_at {A : Type} (key : string) (v : option A) : list string :=
  match v with
  | Some _ => []
  | None => [key]
  end.

Definition validate_ContactForm (E : environment) (body : gmap string json)
    : validation :=
  let n := field_str body "name" in
  let e := field_EmailStr E body "email" in
  let c := field_str_default body "company" "" in
  let s := field_str body "subject" in
  let m := field_str body "message" in
  match n, e, c, s, m with
  | Some n', Some e', Some c', Some s', Some m' =>
      Valid {| name := n'; email := e'; company := c'; subject := s';
               message := m' |}
  | _, _, _, _, _ =>
      Invalid (error_at "name" n ++ error_at "email" e ++ error_at "company" c
               ++ error_at "subject" s ++ error_at "message" m)
  end.

Record response : Type := {
  status : Z;
  content : json
}.

(** The 422 body lists the offending fields; of each entry only its location
    is kept. *)
Definition validation_detail (locs : list string) : json :=
  JObj [("detail",
         JArr (map (fun k => JObj [("loc", JArr [JStr "body"; JStr k])]) locs))].

(** [@app.post("/api/contact")]: validate, run the handler, turn its outcome
    into a response.  A returned dict is sent with status 200, an
    [HTTPException] with its own status and detail, anything else as a bare
    500. *)
Definition post_api_contact (E : environment) (body : gmap string json)
    : world -> response * world :=
  fun w =>
    match validate_ContactForm E body with
    | Invalid locs =>
        ({| status := 422; content := validation_detail locs |}, w)
    | Valid form_data =>
        match submit_contact_form E form_data w with
        | (Return d, w') => ({| status := 200; content := d |}, w')
        | (Raise (HTTPException sc det), w') =>
            ({| status := sc; content := JObj [("detail", JStr det)] |}, w')
        | (Raise (TransportError _), w') =>
            ({| status := 500; content := JStr "Internal Server Error" |}, w')
        end
    end.

Definition client_error (r : response) : Prop := 400 <= status r < 500.
Definition server_error (r : response) : Prop := 500 <= status r < 600.

(** The [detail] text of an error response. *)
Definition detail_of (r : response) : option string :=
  match content r with
  | JObj [("detail", JStr d)] => Some d
  | _ => None
  end.

(** The configuration precondition of [send_notification_email]. *)
Definition configured (E : environment) : Prop :=
  all [username (EMAIL_CONFIG E); password (EMAIL_CONFIG E); RECIPIENT_EMAIL E]
  = true.

(** Whether the relay took a message. *)
Definition accepted (answer : option transport_error) : bool :=
  match answer with
  | None => true
  | Some _ => false
  end.

(** The two calls a request can make, as the helpers build them. *)
Definition notification_call (E : environment) (form_data : ContactForm)
    : smtp_call :=
  send_call E (notification_message E form_data).

Definition confirmation_call (E : environment) (form_data : ContactForm)
    : smtp_call :=
  send_call E (confirmation_message E form_data).

(** The fields [ContactForm] declares as [str] without a default. *)
Definition required_text_fields : list string := ["name"; "subject"; "message"].

Definition has_empty_required_field (body : gmap string json) : Prop :=
  exists key, In key required_text_fields /\ body !! key = Some (JStr "").

(** A request is turned away with a client error and without any call to the
    relay. *)
Definition rejected_before_send (E : environment) (body : gmap string json)
    (w : world) : Prop :=
  client_error (fst (post_api_contact E body w))
  /\ outbox (snd (post_api_contact E body w)) = outbox w.

(** ** Sample data used by the examples *)

Module Sample.

Definition config : email_config :=
  {| hostname := "smtp.gmail.com"; port := 587;
     username := Some "site@example.com"; password := Some "app-password";
     use_tls := true |}.

(** A stand-in for the address check: something before an at sign. *)
Definition has_at_sign (s : string) : option string :=
  match index 0 "@" s with
  | Some (S _) => Some s
  | _ => None
  end.

Definition refused : transport_error :=
  {| error_class := "SMTPConnectError"; error_text := "Connection refused" |}.

Definition relay_up : list smtp_call -> smtp_call -> option transport_error :=
  fun _ _ => None.

Definition relay_down : list smtp_call -> smtp_call -> option transport_error :=
  fun _ _ => Some refused.

(** Accepts the first message of a session and refuses the rest. *)
Definition relay_once : list smtp_call -> smtp_call -> option transport_error :=
  fun earlier _ =>
    match earlier with
    | [] => None
    | _ :: _ => Some refused
    end.

Definition env (user pass recipient : option string)
    (relay : list smtp_call -> smtp_call -> option transport_error)
    : environment :=
  {| EMAIL_CONFIG :=
       {| hostname := hostname config; port := port config;
          username := user; password := pass; use_tls := use_tls config |};
     RECIPIENT_EMAIL := recipient;
     datetime_now := "November 04, 2026 at 09:30 AM";
     smtp_relay := relay;
     validate_email := has_at_sign |}.

Definition live (relay : list smtp_call -> smtp_call -> option transport_error)
    : environment :=
  env (username config) (password config) (Some "owner@example.com") relay.

Definition ada : ContactForm :=
  {| name := "Ada"; email := "ada@example.com"; company := "";
     subject := "Hello"; message := "Hi there" |}.

Definition body_of (f : ContactForm) : gmap string json :=
  <["name" := JStr f.(name)]> (<["email" := JStr f.(email)]>
  (<["company" := JStr f.(company)]> (<["subject" := JStr f.(subject)]>
  (<["message" := JStr f.(message)]> ∅)))).

Definition idle : world := {| outbox := []; stdout := [] |}.

End Sample.

(** ** Module start-up *)

(** [os.getenv(key)] and [os.getenv(key, default)], read from the process
    environment as it stands once [load_dotenv()] has run. *)
Definition getenv (environ : gmap string string) (key : string)
    : option string :=
  environ !! key.

Definition getenv_default (environ : gmap string string) (key default : string)
    : string :=
  match environ !! key with
  | Some v => v
  | None => default
  end.

(** The module-level assignment of [EMAIL_CONFIG].  [int] stands for Python's
    [int] applied to a string; [None] is its [ValueError], which fails the
    import of the module. *)
Definition load_EMAIL_CONFIG (int : string -> option Z)
    (environ : gmap string string) : option email_config :=
  let host := getenv_default environ "EMAIL_HOST" "smtp.gmail.com" in
  match int (getenv_default environ "EMAIL_PORT" "587") with
  | Some p =>
      Some {| hostname := host;
              port := p;
              username := getenv environ "EMAIL_USER";
              password := getenv environ "EMAIL_PASSWORD";
              use_tls := true |}
  | None => None
  end.

(** The globals of the module after import; the clock, the relay and the
    address check are handed through. *)
Definition load_module (int : string -> option Z)
    (environ : gmap string string) (now : string)
    (relay : list smtp_call -> smtp_call -> option transport_error)
    (check : string -> option string) : option environment :=
  match load_EMAIL_CONFIG int environ with
  | Some cfg =>
      Some {| EMAIL_CONFIG := cfg;
              RECIPIENT_EMAIL := getenv environ "RECIPIENT_EMAIL";
              datetime_now := now;
              smtp_relay := relay;
              validate_email := check |}
  | None => None
  end.

(** The three variables [send_notification_email] insists on. *)
Definition required_variables : list string :=
  ["EMAIL_USER"; "EMAIL_PASSWORD"; "RECIPIENT_EMAIL"].

(** ** Observations on a request *)

(** [piece] occurs in [text] as it stands. *)
Definition contains (text piece : string) : Prop :=
  exists before after, text = before +:+ piece +:+ after.

(** The ways a request can go, each with the response and the world it leaves;
    [post_outcome] below shows [post_api_contact] always takes one of them. *)
Inductive outcome (E : environment) (body : gmap string json) (w : world)
    : response * world -> Prop :=
| Rejected locs :
    validate_ContactForm E body = Invalid locs ->
    outcome E body w
      ({| status := 422; content := validation_detail locs |}, w)
| Unconfigured form_data :
    validate_ContactForm E body = Valid form_data ->
    all [username (EMAIL_CONFIG E); password (EMAIL_CONFIG E);
         RECIPIENT_EMAIL E] = false ->
    outcome E body w
      ({| status := 500;
          content := JObj [("detail",
            JStr "An unexpected error occurred. Please try again later.")] |},
       write_line ("Unexpected error: " +:+ str configuration_error) w)
| NotificationRefused form_data err :
    validate_ContactForm E body = Valid form_data ->
    configured E ->
    smtp_relay E (outbox w) (notification_call E form_data) = Some err ->
    outcome E body w
      ({| status := 500;
          content := JObj [("detail",
            JStr "An unexpected error occurred. Please try again later.")] |},
       write_line ("Unexpected error: " +:+ str notification_error)
         (write_line ("Email sending failed: " +:+ error_text err)
            (record_call (notification_call E form_data) w)))
| Notified form_data answer :
    validate_ContactForm E body = Valid form_data ->
    configured E ->
    smtp_relay E (outbox w) (notification_call E form_data) = None ->
    smtp_relay E (outbox w ++ [notification_call E form_data])
      (confirmation_call E form_data) = answer ->
    outcome E body w
      ({| status := 200; content := success_body true (accepted answer) |},
       let w2 := record_call (confirmation_call E form_data)
                   (record_call (notification_call E form_data) w) in
       match answer with
       | None => w2
       | Some err =>
           write_line ("Confirmation email failed: " +:+ error_text err) w2
       end).

(** A call made with the connection settings of [EMAIL_CONFIG] and a message
    whose From header is the login name. *)
Definition uses_config (E : environment) (call : smtp_call) : Prop :=
  to_hostname call = hostname (EMAIL_CONFIG E)
  /\ to_port call = port (EMAIL_CONFIG E)
  /\ with_start_tls call = use_tls (EMAIL_CONFIG E)
  /\ with_username call = username (EMAIL_CONFIG E)
  /\ with_password call = password (EMAIL_CONFIG E)
  /\ get_header "From" (sent_message call) = Some (username (EMAIL_CONFIG E)).

Module Startup.

(** A stand-in for [int]: plain decimal digits. *)
Definition digit (c : Ascii.ascii) : option Z :=
  let n := Ascii.nat_of_ascii c in
  if ((48 <=? n) && (n <=? 57))%nat then Some (Z.of_nat n - 48) else None.

Fixpoint digits (acc : Z) (s : string) : option Z :=
  match s with
  | EmptyString => Some acc
  | String c rest =>
      match digit c with
      | Some d => digits (10 * acc + d) rest
      | None => None
      end
  end.

Definition decimal (s : string) : option Z :=
  match s with
  | EmptyString => None
  | _ => digits 0 s
  end.

Definition environ : gmap string string :=
  <["EMAIL_USER" := "site@example.com"]>
    (<["EMAIL_PASSWORD" := "app-password"]>
       (<["RECIPIENT_EMAIL" := "owner@example.com"]> ∅)).

Definition booted (vars : gmap string string) : option environment :=
  load_module decimal vars "November 04, 2026 at 09:30 AM" Sample.relay_up
    Sample.has_at_sign.

End Startup.

(** * Properties *)

(** ** Equations of the two helpers and of the handler *)

Lemma configured_dec (E : environment) :
  {configured E} + {~ configured E}.
Proof. unfold configured. decide equality. Qed.

Lemma configured_recipient (E : environment) :
  configured E -> exists r, RECIPIENT_EMAIL E = Some r /\ r <> "".
Proof.
  unfold configured, all; cbn.
  destruct (RECIPIENT_EMAIL E) as [[|c r]|]; intros H.
  - rewrite !andb_false_r in H. discriminate.
  - eexists; split; [reflexivity | discriminate].
  - rewrite !andb_false_r in H. discriminate.
Qed.

Lemma unconfigured_cases (E : environment) :
  truthy (username (EMAIL_CONFIG E)) = false
  \/ truthy (password (EMAIL_CONFIG E)) = false
  \/ truthy (RECIPIENT_EMAIL E) = false ->
  all [username (EMAIL_CONFIG E); password (EMAIL_CONFIG E); RECIPIENT_EMAIL E]
  = false.
Proof.
  unfold all; cbn. intros [H | [H | H]]; rewrite H;
    rewrite ?andb_false_r; reflexivity.
Qed.

Lemma send_notification_email_unconfigured E form_data w :
  all [username (EMAIL_CONFIG E); password (EMAIL_CONFIG E); RECIPIENT_EMAIL E]
  = false ->
  send_notification_email E form_data w = (Raise configuration_error, w).
Proof. intros H. unfold send_notification_email. rewrite H. reflexivity. Qed.

Lemma send_notification_email_configured E form_data w :
  configured E ->
  send_notification_email E form_data w =
  match smtp_relay E (outbox w) (notification_call E form_data) with
  | None => (Return true, record_call (notification_call E form_data) w)
  | Some err =>
      (Return false,
       write_line ("Email sending failed: " +:+ error_text err)
         (record_call (notification_call E form_data) w))
  end.
Proof.
  intros H. unfold send_notification_email. rewrite H. cbn [negb].
  unfold try_except, bind, aiosmtplib_send, notification_call.
  destruct (smtp_relay E (outbox w) _); reflexivity.
Qed.

Lemma send_confirmation_email_eq E form_data w :
  send_confirmation_email E form_data w =
  match smtp_relay E (outbox w) (confirmation_call E form_data) with
  | None => (Return true, record_call (confirmation_call E form_data) w)
  | Some err =>
      (Return false,
       write_line ("Confirmation email failed: " +:+ error_text err)
         (record_call (confirmation_call E form_data) w))
  end.
Proof.
  unfold send_confirmation_email, try_except, bind, aiosmtplib_send,
    confirmation_call.
  destruct (smtp_relay E (outbox w) _); reflexivity.
Qed.

(** The three ways through [submit_contact_form]. *)
Lemma submit_unconfigured E form_data w :
  all [username (EMAIL_CONFIG E); password (EMAIL_CONFIG E); RECIPIENT_EMAIL E]
  = false ->
  submit_contact_form E form_data w =
  (Raise unexpected_error,
   write_line ("Unexpected error: " +:+ str configuration_error) w).
Proof.
  intros H. unfold submit_contact_form, try_except, bind.
  rewrite (send_notification_email_unconfigured _ _ _ H). reflexivity.
Qed.

Lemma submit_notification_failed E form_data w err :
  configured E ->
  smtp_relay E (outbox w) (notification_call E form_data) = Some err ->
  submit_contact_form E form_data w =
  (Raise unexpected_error,
   write_line ("Unexpected error: " +:+ str notification_error)
     (write_line ("Email sending failed: " +:+ error_text err)
        (record_call (notification_call E form_data) w))).
Proof.
  intros HC HR. unfold submit_contact_form, try_except, bind.
  rewrite (send_notification_email_configured _ _ _ HC), HR. reflexivity.
Qed.

Lemma submit_notification_sent E form_data w :
  configured E ->
  smtp_relay E (outbox w) (notification_call E form_data) = None ->
  submit_contact_form E form_data w =
  let w1 := record_call (notification_call E form_data) w in
  match smtp_relay E (outbox w1) (confirmation_call E form_data) with
  | None =>
      (Return (success_body true true),
       record_call (confirmation_call E form_data) w1)
  | Some err =>
      (Return (success_body true false),
       write_line ("Confirmation email failed: " +:+ error_text err)
         (record_call (confirmation_call E form_data) w1))
  end.
Proof.
  intros HC HR. unfold submit_contact_form, try_except, bind.
  rewrite (send_notification_email_configured _ _ _ HC), HR. cbn [negb].
  unfold ret, raise. rewrite send_confirmation_email_eq.
  destruct (smtp_relay E _ (confirmation_call E form_data)); reflexivity.
Qed.

(** Whatever goes wrong inside the handler leaves it as the same exception. *)
Lemma submit_raises_unexpected E form_data w e w' :
  submit_contact_form E form_data w = (Raise e, w') -> e = unexpected_error.
Proof.
  destruct (configured_dec E) as [HC | HC].
  - destruct (smtp_relay E (outbox w) (notification_call E form_data))
      as [err|] eqn:HR.
    + rewrite (submit_notification_failed _ _ _ _ HC HR). congruence.
    + rewrite (submit_notification_sent _ _ _ HC HR). cbn zeta.
      destruct (smtp_relay E _ (confirmation_call E form_data)); discriminate.
  - unfold configured in HC. apply not_true_is_false in HC.
    rewrite (submit_unconfigured _ _ _ HC). congruence.
Qed.

Lemma submit_returns_notified E form_data w d w' :
  submit_contact_form E form_data w = (Return d, w') ->
  exists confirmation_sent, d = success_body true confirmation_sent.
Proof.
  destruct (configured_dec E) as [HC | HC].
  - destruct (smtp_relay E (outbox w) (notification_call E form_data))
      as [err|] eqn:HR.
    + rewrite (submit_notification_failed _ _ _ _ HC HR). discriminate.
    + rewrite (submit_notification_sent _ _ _ HC HR). cbn zeta.
      destruct (smtp_relay E _ (confirmation_call E form_data));
        intros [= <- _]; eexists; reflexivity.
  - unfold configured in HC. apply not_true_is_false in HC.
    rewrite (submit_unconfigured _ _ _ HC). discriminate.
Qed.

(** ** Validation and the framework layer *)

Lemma post_invalid E body w locs :
  validate_ContactForm E body = Invalid locs ->
  post_api_contact E body w =
  ({| status := 422; content := validation_detail locs |}, w).
Proof. intros H. unfold post_api_contact. rewrite H. reflexivity. Qed.

Lemma post_valid E body w form_data :
  validate_ContactForm E body = Valid form_data ->
  post_api_contact E body w =
  match submit_contact_form E form_data w with
  | (Return d, w') => ({| status := 200; content := d |}, w')
  | (Raise (HTTPException sc det), w') =>
      ({| status := sc; content := JObj [("detail", JStr det)] |}, w')
  | (Raise (TransportError _), w') =>
      ({| status := 500; content := JStr "Internal Server Error" |}, w')
  end.
Proof. intros H. unfold post_api_contact. rewrite H. reflexivity. Qed.

Lemma validate_invalid E body key :
  In key (error_at "name" (field_str body "name")
          ++ error_at "email" (field_EmailStr E body "email")
          ++ error_at "company" (field_str_default body "company" "")
          ++ error_at "subject" (field_str body "subject")
          ++ error_at "message" (field_str body "message")) ->
  exists locs, In key locs /\ validate_ContactForm E body = Invalid locs.
Proof.
  unfold validate_ContactForm.
  destruct (field_str body "name"), (field_EmailStr E body "email"),
    (field_str_default body "company" ""), (field_str body "subject"),
    (field_str body "message"); cbn [error_at app];
    intros H; try (destruct H; fail); eexists; (split; [exact H | reflexivity]).
Qed.

Lemma field_str_missing (body : gmap string json) (key : string) :
  body !! key = None -> field_str body key = None.
Proof. intros H. unfold field_str. rewrite H. reflexivity. Qed.

Lemma validate_missing_required E body key :
  In key required_text_fields ->
  body !! key = None ->
  exists locs, In key locs /\ validate_ContactForm E body = Invalid locs.
Proof.
  intros HK HM. apply validate_invalid. apply field_str_missing in HM.
  rewrite !in_app_iff.
  destruct HK as [<- | [<- | [<- | []]]]; rewrite HM; cbn; tauto.
Qed.

Lemma validate_bad_email E body s :
  body !! "email" = Some (JStr s) ->
  validate_email E s = None ->
  exists locs, In "email" locs /\ validate_ContactForm E body = Invalid locs.
Proof.
  intros HB HV. apply validate_invalid.
  assert (field_EmailStr E body "email" = None) as ->
    by (unfold field_EmailStr; rewrite HB; exact HV).
  rewrite !in_app_iff. cbn. tauto.
Qed.

(** A body made of five strings passes as soon as the address does, whatever
    the length of the other four. *)
Lemma validate_strings E (n e e' c s m : string) :
  validate_email E e = Some e' ->
  validate_ContactForm E
    (Sample.body_of {| name := n; email := e; company := c; subject := s;
                       message := m |})
  = Valid {| name := n; email := e'; company := c; subject := s;
             message := m |}.
Proof.
  intros HV. unfold validate_ContactForm, field_EmailStr.
  change (Sample.body_of _ !! "email") with (Some (JStr e)).
  cbv beta iota. rewrite HV. reflexivity.
Qed.

(** ** Error responses *)

(** C1 (the code departs from it): the three failure causes are meant to carry
    three different detail texts, but the handler's own [except Exception]
    also catches the two specific [HTTPException]s and replaces them.  With
    the mail user unset, and again with the relay refusing the notification,
    the caller receives status 500 with the same generic detail. *)
Theorem failure_details_coincide :
  let unset :=
    Sample.env None (Some "app-password") (Some "owner@example.com")
      Sample.relay_up in
  let down := Sample.live Sample.relay_down in
  let body := Sample.body_of Sample.ada in
  fst (post_api_contact unset body Sample.idle)
  = fst (post_api_contact down body Sample.idle)
  /\ status (fst (post_api_contact unset body Sample.idle)) = 500
  /\ detail_of (fst (post_api_contact unset body Sample.idle))
     = Some "An unexpected error occurred. Please try again later."
  /\ detail_of (fst (post_api_contact down body Sample.idle))
     = Some "An unexpected error occurred. Please try again later.".
Proof. vm_compute. repeat split. Qed.

(** A valid body under complete configuration always gets as far as the
    notification call. *)
Lemma valid_configured_sends E body w form_data :
  validate_ContactForm E body = Valid form_data ->
  configured E ->
  exists calls,
    outbox (snd (post_api_contact E body w))
    = (outbox w ++ notification_call E form_data :: calls)%list.
Proof.
  intros HV HC. rewrite (post_valid _ _ _ _ HV).
  destruct (smtp_relay E (outbox w) (notification_call E form_data))
    as [err |] eqn:HN.
  - rewrite (submit_notification_failed _ _ _ _ HC HN). exists []. reflexivity.
  - rewrite (submit_notification_sent _ _ _ HC HN). cbn zeta.
    exists [confirmation_call E form_data].
    destruct (smtp_relay E _ (confirmation_call E form_data)); cbn;
      rewrite <- app_assoc; reflexivity.
Qed.

(** A required text field that holds a string is never among the reported
    fields, and a rejection always reports some field. *)
Lemma string_field_not_reported E (body : gmap string json) key s locs :
  In key required_text_fields ->
  body !! key = Some (JStr s) ->
  validate_ContactForm E body = Invalid locs ->
  ~ In key locs /\ exists other, In other locs /\ other <> key.
Proof.
  intros HK HS HV.
  assert (field_str body key = Some s) as HF
    by (unfold field_str; rewrite HS; reflexivity).
  unfold validate_ContactForm in HV.
  destruct HK as [<- | [<- | [<- | []]]]; rewrite HF in HV;
    destruct (field_EmailStr E body "email"),
      (field_str_default body "company" "");
    try destruct (field_str body "name");
    try destruct (field_str body "subject");
    try destruct (field_str body "message");
    try discriminate HV;
    injection HV as <-; cbn [error_at app];
    (split;
     [ cbn; intuition discriminate
     | eexists; split; [left; reflexivity | discriminate] ]).
Qed.

(** C2 (as amended): a submission in which a required text field (name,
    subject or message) is missing from the body is rejected with status 422,
    a client error, and the world is left as it was, so no send is attempted.
    A required text field that is present as the empty string is never
    reported as a validation error: such a body is rejected only when some
    other field is reported, and when it is accepted and the configuration is
    complete the notification is handed to the relay. *)
Theorem missing_required_field_rejected E (body : gmap string json) w key :
  In key required_text_fields ->
  (body !! key = None ->
   rejected_before_send E body w
   /\ status (fst (post_api_contact E body w)) = 422
   /\ snd (post_api_contact E body w) = w)
  /\ (body !! key = Some (JStr "") ->
      (forall locs,
         validate_ContactForm E body = Invalid locs ->
         ~ In key locs /\ exists other, In other locs /\ other <> key)
      /\ (forall form_data,
            validate_ContactForm E body = Valid form_data ->
            configured E ->
            exists calls,
              outbox (snd (post_api_contact E body w))
              = (outbox w ++ notification_call E form_data :: calls)%list)).
Proof.
  intros HK. split.
  - intros HM.
    destruct (validate_missing_required E body key HK HM) as (locs & _ & HV).
    unfold rejected_before_send, client_error.
    rewrite (post_invalid _ _ w _ HV). cbn. repeat split; lia.
  - intros HS. split.
    + intros locs HV. exact (string_field_not_reported E body key "" locs HK HS HV).
    + intros form_data HV HC. exact (valid_configured_sends E body w form_data HV HC).
Qed.

Lemma missing_required_field_rejected_witness :
  let E := Sample.live Sample.relay_up in
  let empty_name := <["name" := JStr ""]> (Sample.body_of Sample.ada) in
  rejected_before_send E (delete "name" (Sample.body_of Sample.ada))
    Sample.idle
  /\ exists calls,
       outbox (snd (post_api_contact E empty_name Sample.idle))
       = ([] ++ notification_call E
                  {| name := ""; email := "ada@example.com"; company := "";
                     subject := "Hello"; message := "Hi there" |} :: calls)%list.
Proof.
  cbv zeta. split.
  - apply (missing_required_field_rejected (Sample.live Sample.relay_up)
             (delete "name" (Sample.body_of Sample.ada)) Sample.idle "name").
    + left. reflexivity.
    + reflexivity.
  - apply (missing_required_field_rejected (Sample.live Sample.relay_up)
             (<["name" := JStr ""]> (Sample.body_of Sample.ada)) Sample.idle
             "name").
    + left. reflexivity.
    + reflexivity.
    + reflexivity.
    + reflexivity.
Defined.

(** C2 as stated fails: with an empty name the request is answered with
    status 200 and both messages are handed to the relay. *)
Lemma empty_name_not_rejected :
  let body := <["name" := JStr ""]> (Sample.body_of Sample.ada) in
  let E := Sample.live Sample.relay_up in
  has_empty_required_field body
  /\ ~ rejected_before_send E body Sample.idle
  /\ status (fst (post_api_contact E body Sample.idle)) = 200
  /\ length (outbox (snd (post_api_contact E body Sample.idle))) = 2%nat.
Proof.
  cbv zeta.
  assert (status (fst (post_api_contact (Sample.live Sample.relay_up)
            (<["name" := JStr ""]> (Sample.body_of Sample.ada)) Sample.idle))
          = 200) as HS by (vm_compute; reflexivity).
  split; [| split; [| split]].
  - exists "name". split; [left; reflexivity | reflexivity].
  - intros [HC _]. unfold client_error in HC. rewrite HS in HC. lia.
  - exact HS.
  - vm_compute. reflexivity.
Qed.

(** C3: when the relay answers the notification with a transport error, the
    request ends in a 500 response and the notification is the only call made
    to the relay: the confirmation is never attempted. *)
Theorem notification_failure_aborts E body form_data w err :
  validate_ContactForm E body = Valid form_data ->
  configured E ->
  smtp_relay E (outbox w) (notification_call E form_data) = Some err ->
  server_error (fst (post_api_contact E body w))
  /\ status (fst (post_api_contact E body w)) = 500
  /\ outbox (snd (post_api_contact E body w))
     = (outbox w ++ [notification_call E form_data])%list.
Proof.
  intros HV HC HR. unfold server_error.
  rewrite (post_valid _ _ _ _ HV), (submit_notification_failed _ _ _ _ HC HR).
  cbn. repeat split; lia.
Qed.

Lemma notification_failure_aborts_witness :
  outbox (snd (post_api_contact (Sample.live Sample.relay_down)
                 (Sample.body_of Sample.ada) Sample.idle))
  = [notification_call (Sample.live Sample.relay_down) Sample.ada].
Proof.
  apply (notification_failure_aborts (Sample.live Sample.relay_down)
           (Sample.body_of Sample.ada) Sample.ada Sample.idle Sample.refused).
  - reflexivity.
  - reflexivity.
  - reflexivity.
Defined.

(** C4: when the relay takes the notification and answers the confirmation
    with a transport error, the response is still 200 with [success: true],
    [notification_sent: true] and [confirmation_sent: false]. *)
Theorem confirmation_failure_tolerated E body form_data w err :
  validate_ContactForm E body = Valid form_data ->
  configured E ->
  smtp_relay E (outbox w) (notification_call E form_data) = None ->
  smtp_relay E (outbox w ++ [notification_call E form_data])%list
    (confirmation_call E form_data) = Some err ->
  fst (post_api_contact E body w)
  = {| status := 200; content := success_body true false |}.
Proof.
  intros HV HC HN HR.
  rewrite (post_valid _ _ _ _ HV), (submit_notification_sent _ _ _ HC HN).
  cbn zeta. cbn [record_call outbox]. rewrite HR. reflexivity.
Qed.

Lemma confirmation_failure_tolerated_witness :
  fst (post_api_contact (Sample.live Sample.relay_once)
         (Sample.body_of Sample.ada) Sample.idle)
  = {| status := 200; content := success_body true false |}.
Proof.
  apply (confirmation_failure_tolerated (Sample.live Sample.relay_once)
           (Sample.body_of Sample.ada) Sample.ada Sample.idle Sample.refused).
  - reflexivity.
  - reflexivity.
  - reflexivity.
  - reflexivity.
Defined.

(** C5: when the mail user, the mail password or the recipient address is
    unset or empty, the precondition check of [send_notification_email] raises
    the configuration error without touching the world, the request ends in a
    server-error response, and no call to the relay is made. *)
Theorem missing_configuration_no_send E body form_data w :
  validate_ContactForm E body = Valid form_data ->
  truthy (username (EMAIL_CONFIG E)) = false
  \/ truthy (password (EMAIL_CONFIG E)) = false
  \/ truthy (RECIPIENT_EMAIL E) = false ->
  send_notification_email E form_data w = (Raise configuration_error, w)
  /\ server_error (fst (post_api_contact E body w))
  /\ outbox (snd (post_api_contact E body w)) = outbox w.
Proof.
  intros HV HM. apply unconfigured_cases in HM. split.
  - apply send_notification_email_unconfigured, HM.
  - unfold server_error.
    rewrite (post_valid _ _ _ _ HV), (submit_unconfigured _ _ _ HM).
    cbn. repeat split; lia.
Qed.

Lemma missing_configuration_no_send_witness :
  let up := Sample.relay_up in
  let body := Sample.body_of Sample.ada in
  outbox (snd (post_api_contact
                 (Sample.env None (Some "app-password")
                    (Some "owner@example.com") up) body Sample.idle)) = []
  /\ outbox (snd (post_api_contact
                    (Sample.env (Some "site@example.com") (Some "")
                       (Some "owner@example.com") up) body Sample.idle)) = []
  /\ outbox (snd (post_api_contact
                    (Sample.env (Some "site@example.com")
                       (Some "app-password") None up) body Sample.idle)) = [].
Proof.
  cbv zeta. split; [| split].
  - apply (missing_configuration_no_send
             (Sample.env None (Some "app-password")
                (Some "owner@example.com") Sample.relay_up)
             (Sample.body_of Sample.ada) Sample.ada Sample.idle).
    + reflexivity.
    + left. reflexivity.
  - apply (missing_configuration_no_send
             (Sample.env (Some "site@example.com") (Some "")
                (Some "owner@example.com") Sample.relay_up)
             (Sample.body_of Sample.ada) Sample.ada Sample.idle).
    + reflexivity.
    + right. left. reflexivity.
  - apply (missing_configuration_no_send
             (Sample.env (Some "site@example.com") (Some "app-password") None
                Sample.relay_up)
             (Sample.body_of Sample.ada) Sample.ada Sample.idle).
    + reflexivity.
    + right. right. reflexivity.
Defined.

(** C6: a submission whose email field fails the address check is rejected
    with status 422 and the world is left as it was: no call to the relay. *)
Theorem invalid_email_rejected E (body : gmap string json) w s :
  body !! "email" = Some (JStr s) ->
  validate_email E s = None ->
  rejected_before_send E body w
  /\ status (fst (post_api_contact E body w)) = 422
  /\ snd (post_api_contact E body w) = w.
Proof.
  intros HB HE.
  destruct (validate_bad_email E body s HB HE) as (locs & _ & HV).
  unfold rejected_before_send, client_error.
  rewrite (post_invalid _ _ w _ HV). cbn. repeat split; lia.
Qed.

Lemma invalid_email_rejected_witness :
  rejected_before_send (Sample.live Sample.relay_up)
    (<["email" := JStr "not-an-email"]> (Sample.body_of Sample.ada))
    Sample.idle.
Proof.
  apply (invalid_email_rejected (Sample.live Sample.relay_up)
           (<["email" := JStr "not-an-email"]> (Sample.body_of Sample.ada))
           Sample.idle "not-an-email").
  - reflexivity.
  - reflexivity.
Defined.

(** ** The success path *)

(** C7: for the submission of Ada, with complete configuration, the address
    accepted as it stands and the relay taking both messages, the response is
    status 200 with exactly the body [{success: true, message: "Your message
    has been sent successfully!", details: {notification_sent: true,
    confirmation_sent: true}}]. *)
Theorem ada_scenario E w :
  configured E ->
  validate_email E "ada@example.com" = Some "ada@example.com" ->
  smtp_relay E (outbox w) (notification_call E Sample.ada) = None ->
  smtp_relay E (outbox w ++ [notification_call E Sample.ada])%list
    (confirmation_call E Sample.ada) = None ->
  fst (post_api_contact E (Sample.body_of Sample.ada) w)
  = {| status := 200;
       content :=
         JObj [("success", JBool true);
               ("message", JStr "Your message has been sent successfully!");
               ("details", JObj [("notification_sent", JBool true);
                                 ("confirmation_sent", JBool true)])] |}.
Proof.
  intros HC HV HN HR.
  rewrite (post_valid _ _ _ Sample.ada
             (validate_strings E "Ada" _ _ "" "Hello" "Hi there" HV)).
  rewrite (submit_notification_sent _ _ _ HC HN).
  cbn zeta. cbn [record_call outbox]. rewrite HR. reflexivity.
Qed.

Lemma ada_scenario_witness :
  status (fst (post_api_contact (Sample.live Sample.relay_up)
                 (Sample.body_of Sample.ada) Sample.idle)) = 200.
Proof.
  rewrite (ada_scenario (Sample.live Sample.relay_up) Sample.idle).
  - reflexivity.
  - reflexivity.
  - reflexivity.
  - reflexivity.
  - reflexivity.
Defined.

(** C8: the message [send_notification_email] hands to the relay is addressed
    to the configured recipient, has the submitter's address as Reply-To, and
    has as Subject the fixed marker followed by the submission's subject. *)
Theorem notification_headers E form_data w :
  configured E ->
  exists recipient m,
    RECIPIENT_EMAIL E = Some recipient
    /\ outbox (snd (send_notification_email E form_data w))
       = (outbox w ++ [send_call E m])%list
    /\ get_header "To" m = Some (Some recipient)
    /\ get_header "Reply-To" m = Some (Some form_data.(email))
    /\ get_header "Subject" m
       = Some (Some ("🔔 New Contact Form: " +:+ form_data.(subject))).
Proof.
  intros HC. destruct (configured_recipient E HC) as (r & HR & _).
  exists r, (notification_message E form_data). split; [exact HR |].
  split.
  - rewrite (send_notification_email_configured _ _ _ HC).
    destruct (smtp_relay E (outbox w) _); reflexivity.
  - unfold get_header, notification_message. rewrite HR. repeat split.
Qed.

Lemma notification_headers_witness :
  exists recipient m,
    RECIPIENT_EMAIL (Sample.live Sample.relay_up) = Some recipient
    /\ outbox (snd (send_notification_email (Sample.live Sample.relay_up)
                      Sample.ada Sample.idle))
       = ([] ++ [send_call (Sample.live Sample.relay_up) m])%list
    /\ get_header "To" m = Some (Some recipient)
    /\ get_header "Reply-To" m = Some (Some "ada@example.com")
    /\ get_header "Subject" m = Some (Some "🔔 New Contact Form: Hello").
Proof.
  apply (notification_headers (Sample.live Sample.relay_up) Sample.ada
           Sample.idle).
  reflexivity.
Defined.

(** C9: every response with status 200 carries [success: true] together with
    [notification_sent: true]; a success response with
    [notification_sent: false] cannot be produced. *)
Theorem success_implies_notified E body w :
  status (fst (post_api_contact E body w)) = 200 ->
  exists confirmation_sent,
    content (fst (post_api_contact E body w))
    = success_body true confirmation_sent.
Proof.
  unfold post_api_contact.
  destruct (validate_ContactForm E body) as [form_data | locs];
    [| cbn; discriminate].
  destruct (submit_contact_form E form_data w) as [[d | e] w'] eqn:HS.
  - intros _. exact (submit_returns_notified _ _ _ _ _ HS).
  - rewrite (submit_raises_unexpected _ _ _ _ _ HS). cbn. discriminate.
Qed.

Lemma success_implies_notified_witness :
  exists confirmation_sent,
    content (fst (post_api_contact (Sample.live Sample.relay_once)
                    (Sample.body_of Sample.ada) Sample.idle))
    = success_body true confirmation_sent.
Proof.
  apply (success_implies_notified (Sample.live Sample.relay_once)
           (Sample.body_of Sample.ada) Sample.idle).
  reflexivity.
Defined.

(** C10: with complete configuration neither helper lets an exception of the
    relay escape: each returns [True] when the relay takes the message and
    [False] when the relay raises. *)
Theorem helpers_return_booleans E form_data w :
  configured E ->
  fst (send_notification_email E form_data w)
  = Return (accepted (smtp_relay E (outbox w) (notification_call E form_data)))
  /\ fst (send_confirmation_email E form_data w)
     = Return (accepted (smtp_relay E (outbox w)
                           (confirmation_call E form_data))).
Proof.
  intros HC. split.
  - rewrite (send_notification_email_configured _ _ _ HC).
    destruct (smtp_relay E (outbox w) _); reflexivity.
  - rewrite send_confirmation_email_eq.
    destruct (smtp_relay E (outbox w) _); reflexivity.
Qed.

Lemma helpers_return_booleans_witness :
  fst (send_notification_email (Sample.live Sample.relay_down) Sample.ada
         Sample.idle) = Return false
  /\ fst (send_confirmation_email (Sample.live Sample.relay_down) Sample.ada
            Sample.idle) = Return false.
Proof.
  apply (helpers_return_booleans (Sample.live Sample.relay_down) Sample.ada
           Sample.idle).
  reflexivity.
Defined.

(** * Further properties of the code *)

(** ** Every request takes one of four ways *)

Lemma post_outcome E body w :
  outcome E body w (post_api_contact E body w).
Proof.
  destruct (validate_ContactForm E body) as [form_data | locs] eqn:HV.
  - rewrite (post_valid _ _ _ _ HV).
    destruct (configured_dec E) as [HC | HC].
    + destruct (smtp_relay E (outbox w) (notification_call E form_data))
        as [err |] eqn:HN.
      * rewrite (submit_notification_failed _ _ _ _ HC HN).
        exact (NotificationRefused E body w form_data err HV HC HN).
      * rewrite (submit_notification_sent _ _ _ HC HN). cbn zeta.
        pose proof (Notified E body w form_data _ HV HC HN eq_refl) as HO.
        cbn [record_call outbox] in *.
        destruct (smtp_relay E _ (confirmation_call E form_data)); exact HO.
    + unfold configured in HC. apply not_true_is_false in HC.
      rewrite (submit_unconfigured _ _ _ HC).
      exact (Unconfigured E body w form_data HV HC).
  - rewrite (post_invalid _ _ _ _ HV). exact (Rejected E body w locs HV).
Qed.

(** X1: the response has status 200 exactly when the body validates, the
    configuration is complete and the relay takes the notification. *)
Theorem success_iff_notification_accepted E body w :
  status (fst (post_api_contact E body w)) = 200
  <-> exists form_data,
        validate_ContactForm E body = Valid form_data
        /\ configured E
        /\ smtp_relay E (outbox w) (notification_call E form_data) = None.
Proof.
  split.
  - destruct (post_outcome E body w) as [locs HV | f HV HC | f err HV HC HN
                                          | f answer HV HC HN HA];
      cbn; try discriminate.
    intros _. exists f. auto.
  - intros (f & HV & HC & HN).
    rewrite (post_valid _ _ _ _ HV), (submit_notification_sent _ _ _ HC HN).
    cbn zeta. destruct (smtp_relay E _ (confirmation_call E f)); reflexivity.
Qed.

Lemma new_calls_shape E body w :
  exists calls,
    outbox (snd (post_api_contact E body w)) = (outbox w ++ calls)%list
    /\ (calls = []
        \/ exists form_data,
             validate_ContactForm E body = Valid form_data
             /\ (calls = [notification_call E form_data]
                 \/ calls = [notification_call E form_data;
                             confirmation_call E form_data])).
Proof.
  destruct (post_outcome E body w) as [locs HV | f HV HC | f err HV HC HN
                                        | f answer HV HC HN HA].
  - exists []. cbn. rewrite app_nil_r. auto.
  - exists []. cbn. rewrite app_nil_r. auto.
  - exists [notification_call E f]. cbn. split; [reflexivity |].
    right. exists f. auto.
  - exists [notification_call E f; confirmation_call E f]. split.
    + destruct answer; cbn; rewrite <- app_assoc; reflexivity.
    + right. exists f. auto.
Qed.

Lemma notification_call_uses_config E form_data :
  uses_config E (notification_call E form_data).
Proof. repeat split. Qed.

Lemma confirmation_call_uses_config E form_data :
  uses_config E (confirmation_call E form_data).
Proof. repeat split. Qed.

(** X2: a request only appends to the outbox, and what it appends is nothing, the
    notification alone, or the notification followed by the confirmation. *)
Theorem request_calls_shape E body w calls :
  outbox (snd (post_api_contact E body w)) = (outbox w ++ calls)%list ->
  calls = []
  \/ exists form_data,
       validate_ContactForm E body = Valid form_data
       /\ (calls = [notification_call E form_data]
           \/ calls = [notification_call E form_data;
                       confirmation_call E form_data]).
Proof.
  destruct (new_calls_shape E body w) as (calls' & -> & HS).
  intros H. apply app_inv_head in H. subst calls'. exact HS.
Qed.

Lemma request_calls_shape_witness :
  let E := Sample.live Sample.relay_down in
  [notification_call E Sample.ada] = []
  \/ exists form_data,
       validate_ContactForm E (Sample.body_of Sample.ada) = Valid form_data
       /\ ([notification_call E Sample.ada] = [notification_call E form_data]
           \/ [notification_call E Sample.ada]
              = [notification_call E form_data;
                 confirmation_call E form_data]).
Proof.
  apply (request_calls_shape (Sample.live Sample.relay_down)
           (Sample.body_of Sample.ada) Sample.idle).
  reflexivity.
Defined.

(** X3: every call a request adds to the outbox carries the connection settings of
    [EMAIL_CONFIG], and the From header of its message is the login name. *)
Theorem relay_calls_use_config E body w calls :
  outbox (snd (post_api_contact E body w)) = (outbox w ++ calls)%list ->
  Forall (uses_config E) calls.
Proof.
  destruct (new_calls_shape E body w) as (calls' & -> & HS).
  intros H. apply app_inv_head in H. subst calls'.
  destruct HS as [-> | (f & _ & [-> | ->])].
  - apply Forall_nil_2.
  - apply Forall_cons_2; [exact (notification_call_uses_config E f) |].
    apply Forall_nil_2.
  - apply Forall_cons_2; [exact (notification_call_uses_config E f) |].
    apply Forall_cons_2; [exact (confirmation_call_uses_config E f) |].
    apply Forall_nil_2.
Qed.

Lemma relay_calls_use_config_witness :
  let E := Sample.live Sample.relay_up in
  Forall (uses_config E)
    [notification_call E Sample.ada; confirmation_call E Sample.ada].
Proof.
  apply (relay_calls_use_config (Sample.live Sample.relay_up)
           (Sample.body_of Sample.ada) Sample.idle).
  reflexivity.
Defined.

(** X4: in a success response the [confirmation_sent] flag tells whether the relay
    took the confirmation, and both messages were handed to the relay, the
    notification first. *)
Theorem confirmation_flag_truthful E body form_data w :
  validate_ContactForm E body = Valid form_data ->
  status (fst (post_api_contact E body w)) = 200 ->
  content (fst (post_api_contact E body w))
  = success_body true
      (accepted (smtp_relay E (outbox w ++ [notification_call E form_data])
                   (confirmation_call E form_data)))
  /\ outbox (snd (post_api_contact E body w))
     = (outbox w ++ [notification_call E form_data;
                     confirmation_call E form_data])%list.
Proof.
  intros HF.
  destruct (post_outcome E body w) as [locs HV | f HV HC | f err HV HC HN
                                        | f answer HV HC HN HA];
    cbn [fst snd status content]; try discriminate.
  intros _. assert (f = form_data) as -> by congruence. rewrite HA. split.
  - reflexivity.
  - destruct answer; cbn; rewrite <- app_assoc; reflexivity.
Qed.

Lemma confirmation_flag_truthful_witness :
  content (fst (post_api_contact (Sample.live Sample.relay_once)
                  (Sample.body_of Sample.ada) Sample.idle))
  = success_body true false.
Proof.
  apply (confirmation_flag_truthful (Sample.live Sample.relay_once)
           (Sample.body_of Sample.ada) Sample.ada Sample.idle).
  - reflexivity.
  - reflexivity.
Defined.

(** X5: a response is one of three: 422 with the list of offending fields and the
    world untouched, 500 with the generic detail, or 200 with the success
    body.  The relay's error text, the configuration message and the
    notification message never reach the caller. *)
Theorem responses_are_of_three_kinds E body w :
  (exists locs,
     post_api_contact E body w
     = ({| status := 422; content := validation_detail locs |}, w))
  \/ fst (post_api_contact E body w)
     = {| status := 500;
          content := JObj [("detail",
            JStr "An unexpected error occurred. Please try again later.")] |}
  \/ (exists confirmation_sent,
        fst (post_api_contact E body w)
        = {| status := 200;
             content := success_body true confirmation_sent |}).
Proof.
  destruct (post_outcome E body w) as [locs HV | f HV HC | f err HV HC HN
                                        | f answer HV HC HN HA].
  - left. exists locs. reflexivity.
  - right. left. reflexivity.
  - right. left. reflexivity.
  - right. right. eexists. reflexivity.
Qed.

(** X6: a successful request prints nothing when the relay takes the confirmation
    and exactly one line, carrying the relay's error text, when it does
    not. *)
Theorem success_logging E body form_data w :
  validate_ContactForm E body = Valid form_data ->
  status (fst (post_api_contact E body w)) = 200 ->
  stdout (snd (post_api_contact E body w))
  = (stdout w
     ++ match smtp_relay E (outbox w ++ [notification_call E form_data])
                (confirmation_call E form_data) with
        | None => []
        | Some err => ["Confirmation email failed: " +:+ error_text err]
        end)%list.
Proof.
  intros HF.
  destruct (post_outcome E body w) as [locs HV | f HV HC | f err HV HC HN
                                        | f answer HV HC HN HA];
    cbn [fst snd status]; try discriminate.
  intros _. assert (f = form_data) as -> by congruence. rewrite HA.
  destruct answer; cbn; [reflexivity | rewrite app_nil_r; reflexivity].
Qed.

Lemma success_logging_witness :
  stdout (snd (post_api_contact (Sample.live Sample.relay_once)
                 (Sample.body_of Sample.ada) Sample.idle))
  = ["Confirmation email failed: Connection refused"].
Proof.
  apply (success_logging (Sample.live Sample.relay_once)
           (Sample.body_of Sample.ada) Sample.ada Sample.idle).
  - reflexivity.
  - reflexivity.
Defined.

(** ** The confirmation message *)

(** X7: whatever the configuration and whatever the relay answers,
    [send_confirmation_email] makes exactly one call; its message is addressed
    to the submitter, has the fixed subject, comes From the login name and has
    no Reply-To header. *)
Theorem confirmation_headers E form_data w :
  exists m,
    outbox (snd (send_confirmation_email E form_data w))
    = (outbox w ++ [send_call E m])%list
    /\ get_header "To" m = Some (Some form_data.(email))
    /\ get_header "Subject" m = Some (Some "✅ Thanks for reaching out!")
    /\ get_header "From" m = Some (username (EMAIL_CONFIG E))
    /\ get_header "Reply-To" m = None.
Proof.
  exists (confirmation_message E form_data). split.
  - rewrite send_confirmation_email_eq.
    destruct (smtp_relay E (outbox w) _); reflexivity.
  - repeat split.
Qed.

(** ** The two HTML bodies *)

Lemma string_app_nil_r (s : string) : s +:+ "" = s.
Proof.
  induction s as [| c s IH]; [reflexivity |].
  change (String c (s +:+ "") = String c s). now rewrite IH.
Qed.

Lemma string_app_assoc (a b c : string) : (a +:+ b) +:+ c = a +:+ b +:+ c.
Proof.
  induction a as [| x a IH]; [reflexivity |].
  change (String x ((a +:+ b) +:+ c) = String x (a +:+ b +:+ c)).
  now rewrite IH.
Qed.

Lemma concat_cons (x : string) (l : list string) :
  String.concat "" (x :: l) = x +:+ String.concat "" l.
Proof.
  destruct l as [| y l]; [| reflexivity].
  change (x = x +:+ ""). now rewrite string_app_nil_r.
Qed.

Lemma concat_app (l1 l2 : list string) :
  String.concat "" (l1 ++ l2)
  = String.concat "" l1 +:+ String.concat "" l2.
Proof.
  induction l1 as [| x l1 IH].
  - reflexivity.
  - change ((x :: l1) ++ l2)%list with (x :: (l1 ++ l2))%list.
    rewrite !concat_cons, IH, string_app_assoc. reflexivity.
Qed.

(** Joining a list of pieces leaves the piece at a given place as it is,
    between what comes before and what comes after. *)
Lemma concat_lookup (l : list string) (k : nat) (x : string) :
  l !! k = Some x ->
  String.concat "" l
  = String.concat "" (take k l) +:+ x +:+ String.concat "" (drop (S k) l).
Proof.
  intros H. rewrite <- (take_drop_middle l k x H) at 1.
  rewrite concat_app, concat_cons. reflexivity.
Qed.

Lemma contains_at (l : list string) (k : nat) (x : string) :
  l !! k = Some x -> contains (String.concat "" l) x.
Proof.
  intros H. exists (String.concat "" (take k l)),
    (String.concat "" (drop (S k) l)). exact (concat_lookup l k x H).
Qed.

(** X8: the message text is spliced into the notification body unchanged, at one
    place, and the rest of the body does not depend on it: nothing is escaped
    or stripped. *)
Theorem notification_message_verbatim (now n e c s : string) :
  exists before after,
    forall m,
      notification_html now
        {| name := n; email := e; company := c; subject := s; message := m |}
      = before +:+ m +:+ after.
Proof.
  eexists. eexists. intros m. unfold notification_html.
  match goal with
  | |- String.concat _ ?l = _ => rewrite (concat_lookup l 143 m eq_refl)
  end.
  cbn [firstn skipn name email company subject message]. reflexivity.
Qed.

(** Joining a list of pieces leaves every run of neighbouring pieces as it
    is. *)
Lemma contains_segment (l : list string) (i n : nat) :
  contains (String.concat "" l) (String.concat "" (take n (drop i l))).
Proof.
  exists (String.concat "" (take i l)),
    (String.concat "" (drop n (drop i l))).
  rewrite <- concat_app, take_drop, <- concat_app, take_drop. reflexivity.
Qed.

(** X9: the notification body shows the name, the address, the subject, the
    message and the time of receipt as they are given; the table cell that
    follows the label "Company:" holds the company and nothing else or, when
    the company is empty, the words "Not specified" and nothing else. *)
Theorem notification_html_embeds (now : string) (form_data : ContactForm) :
  contains (notification_html now form_data) form_data.(name)
  /\ contains (notification_html now form_data) form_data.(email)
  /\ contains (notification_html now form_data) form_data.(subject)
  /\ contains (notification_html now form_data) form_data.(message)
  /\ contains (notification_html now form_data) now
  /\ contains (notification_html now form_data)
       (">Company:</td>" +:+ nl
        +:+ "                            <td style=" +:+ dq
        +:+ "padding: 8px 0;" +:+ dq +:+ ">"
        +:+ (if bool_decide (form_data.(company) = "") then "Not specified"
             else form_data.(company))
        +:+ "</td>").
Proof.
  unfold notification_html. repeat split.
  - apply (contains_at _ 52). reflexivity.
  - apply (contains_at _ 72). reflexivity.
  - apply (contains_at _ 115). reflexivity.
  - apply (contains_at _ 143). reflexivity.
  - apply (contains_at _ 163). reflexivity.
  - destruct form_data as [n e [| x c] s m];
      match goal with
      | |- contains (String.concat _ ?l) _ => exact (contains_segment l 86 9)
      end.
Qed.

(** X10: a body without a company key is accepted with the empty company, and the
    notification then shows "Not specified". *)
Theorem omitted_company_not_specified E (body : gmap string json) form_data
    (now : string) :
  body !! "company" = None ->
  validate_ContactForm E body = Valid form_data ->
  form_data.(company) = ""
  /\ contains (notification_html now form_data) "Not specified".
Proof.
  intros HB HV. unfold validate_ContactForm, field_str_default in HV.
  rewrite HB in HV.
  destruct (field_str body "name"), (field_EmailStr E body "email"),
    (field_str body "subject"), (field_str body "message");
    try discriminate.
  injection HV as <-. split; [reflexivity |].
  unfold notification_html. apply (contains_at _ 93). reflexivity.
Qed.

Lemma omitted_company_not_specified_witness :
  contains
    (notification_html "now"
       {| name := "Ada"; email := "ada@example.com"; company := "";
          subject := "Hello"; message := "Hi there" |})
    "Not specified".
Proof.
  apply (omitted_company_not_specified (Sample.live Sample.relay_up)
           (delete "company" (Sample.body_of Sample.ada))).
  - reflexivity.
  - reflexivity.
Defined.

(** X11: the confirmation body is made of the name, the subject and the message
    alone, each shown as given: two submissions that agree on these three get
    the same body, whatever their address and company. *)
Theorem confirmation_html_fields (form_data other : ContactForm) :
  other.(name) = form_data.(name) ->
  other.(subject) = form_data.(subject) ->
  other.(message) = form_data.(message) ->
  confirmation_html other = confirmation_html form_data
  /\ contains (confirmation_html form_data) form_data.(name)
  /\ contains (confirmation_html form_data) form_data.(subject)
  /\ contains (confirmation_html form_data) form_data.(message).
Proof.
  intros HN HS HM. split.
  - unfold confirmation_html. rewrite HN, HS, HM. reflexivity.
  - unfold confirmation_html. repeat split.
    + apply (contains_at _ 20). reflexivity.
    + apply (contains_at _ 27). reflexivity.
    + apply (contains_at _ 50). reflexivity.
Qed.

Lemma confirmation_html_fields_witness :
  confirmation_html
    {| name := "Ada"; email := "lovelace@example.org"; company := "Analytical";
       subject := "Hello"; message := "Hi there" |}
  = confirmation_html Sample.ada.
Proof.
  apply (confirmation_html_fields Sample.ada
           {| name := "Ada"; email := "lovelace@example.org";
              company := "Analytical"; subject := "Hello";
              message := "Hi there" |}).
  - reflexivity.
  - reflexivity.
  - reflexivity.
Defined.

(** ** Start-up and the process environment *)

Lemma load_module_fields int environ now relay check E :
  load_module int environ now relay check = Some E ->
  hostname (EMAIL_CONFIG E) = getenv_default environ "EMAIL_HOST" "smtp.gmail.com"
  /\ int (getenv_default environ "EMAIL_PORT" "587")
     = Some (port (EMAIL_CONFIG E))
  /\ username (EMAIL_CONFIG E) = environ !! "EMAIL_USER"
  /\ password (EMAIL_CONFIG E) = environ !! "EMAIL_PASSWORD"
  /\ use_tls (EMAIL_CONFIG E) = true
  /\ RECIPIENT_EMAIL E = environ !! "RECIPIENT_EMAIL".
Proof.
  unfold load_module, load_EMAIL_CONFIG, getenv.
  destruct (int _) as [p |]; [| discriminate].
  intros [= <-]. cbn. repeat split.
Qed.

(** X12: the import of the module fails only on a port text [int] refuses; unset
    credentials or an unset recipient never stop it. *)
Theorem startup_fails_only_on_port int environ now relay check :
  load_module int environ now relay check = None
  <-> int (getenv_default environ "EMAIL_PORT" "587") = None.
Proof.
  unfold load_module, load_EMAIL_CONFIG.
  destruct (int _); split; intros H; first [discriminate | reflexivity].
Qed.

Lemma startup_fails_only_on_port_witness :
  Startup.booted (<["EMAIL_PORT" := "smtp"]> Startup.environ) = None
  /\ Startup.booted ∅ <> None.
Proof.
  split.
  - apply (proj2 (startup_fails_only_on_port Startup.decimal
                    (<["EMAIL_PORT" := "smtp"]> Startup.environ)
                    "November 04, 2026 at 09:30 AM" Sample.relay_up
                    Sample.has_at_sign)).
    reflexivity.
  - intros H.
    apply (proj1 (startup_fails_only_on_port Startup.decimal ∅
                    "November 04, 2026 at 09:30 AM" Sample.relay_up
                    Sample.has_at_sign)) in H.
    discriminate H.
Defined.

(** X13: under the globals the module loads, every call a request adds to the
    outbox asks for STARTTLS, goes to the host named by EMAIL_HOST (or
    smtp.gmail.com when that is unset) and to the port [int] read, and logs in
    with EMAIL_USER and EMAIL_PASSWORD as the environment has them. *)
Theorem loaded_calls_use_starttls int environ now relay check E body w calls :
  load_module int environ now relay check = Some E ->
  outbox (snd (post_api_contact E body w)) = (outbox w ++ calls)%list ->
  Forall (fun call =>
            with_start_tls call = true
            /\ to_hostname call
               = getenv_default environ "EMAIL_HOST" "smtp.gmail.com"
            /\ int (getenv_default environ "EMAIL_PORT" "587")
               = Some (to_port call)
            /\ with_username call = environ !! "EMAIL_USER"
            /\ with_password call = environ !! "EMAIL_PASSWORD") calls.
Proof.
  intros HL.
  destruct (load_module_fields _ _ _ _ _ _ HL) as (HH & HP & HU & HW & HT & _).
  destruct (new_calls_shape E body w) as (calls' & -> & HS).
  intros H. apply app_inv_head in H. subst calls'.
  assert (forall c, uses_config E c ->
            with_start_tls c = true
            /\ to_hostname c
               = getenv_default environ "EMAIL_HOST" "smtp.gmail.com"
            /\ int (getenv_default environ "EMAIL_PORT" "587")
               = Some (to_port c)
            /\ with_username c = environ !! "EMAIL_USER"
            /\ with_password c = environ !! "EMAIL_PASSWORD") as HF.
  { intros c (Hh & Hp & Ht & Hu & Hw & _).
    rewrite Hh, Hp, Ht, Hu, Hw. auto. }
  destruct HS as [-> | (f & _ & [-> | ->])].
  - apply Forall_nil_2.
  - apply Forall_cons_2;
      [exact (HF _ (notification_call_uses_config E f)) |].
    apply Forall_nil_2.
  - apply Forall_cons_2;
      [exact (HF _ (notification_call_uses_config E f)) |].
    apply Forall_cons_2;
      [exact (HF _ (confirmation_call_uses_config E f)) |].
    apply Forall_nil_2.
Qed.

Lemma loaded_calls_use_starttls_witness :
  exists E,
    Startup.booted Startup.environ = Some E
    /\ Forall (fun call =>
                 with_start_tls call = true
                 /\ to_hostname call = "smtp.gmail.com"
                 /\ Startup.decimal "587" = Some (to_port call)
                 /\ with_username call = Some "site@example.com"
                 /\ with_password call = Some "app-password")
         [notification_call E Sample.ada; confirmation_call E Sample.ada].
Proof.
  exists (Sample.live Sample.relay_up). split; [reflexivity |].
  apply (loaded_calls_use_starttls Startup.decimal Startup.environ
           "November 04, 2026 at 09:30 AM" Sample.relay_up Sample.has_at_sign
           (Sample.live Sample.relay_up) (Sample.body_of Sample.ada)
           Sample.idle).
  - reflexivity.
  - reflexivity.
Defined.

Lemma truthy_lookup (environ : gmap string string) (key : string) :
  truthy (environ !! key) = true
  <-> exists v, environ !! key = Some v /\ v <> "".
Proof.
  destruct (environ !! key) as [[| c v] |]; cbn; split.
  - discriminate.
  - intros (v & [= <-] & H). now destruct H.
  - intros _. eexists. split; [reflexivity | discriminate].
  - reflexivity.
  - discriminate.
  - intros (v & H & _). discriminate.
Qed.

(** X14: under the globals the module loads, the configuration check passes
    exactly when EMAIL_USER, EMAIL_PASSWORD and RECIPIENT_EMAIL are all set
    to a non-empty text. *)
Theorem configured_iff_variables_set int environ now relay check E :
  load_module int environ now relay check = Some E ->
  configured E
  <-> forall key, In key required_variables ->
        exists v, environ !! key = Some v /\ v <> "".
Proof.
  intros HL.
  destruct (load_module_fields _ _ _ _ _ _ HL) as (_ & _ & HU & HW & _ & HR).
  unfold configured, all. cbn [forallb]. rewrite HU, HW, HR, andb_true_r.
  rewrite !andb_true_iff, !truthy_lookup. split.
  - intros (H1 & H2 & H3) key [<- | [<- | [<- | []]]]; assumption.
  - intros H. repeat split; apply H; cbn; tauto.
Qed.

Lemma configured_iff_variables_set_witness :
  configured (Sample.live Sample.relay_up).
Proof.
  apply (proj2 (configured_iff_variables_set Startup.decimal Startup.environ
                  "November 04, 2026 at 09:30 AM" Sample.relay_up
                  Sample.has_at_sign (Sample.live Sample.relay_up)
                  eq_refl)).
  intros key [<- | [<- | [<- | []]]]; eexists;
    (split; [reflexivity | discriminate]).
Defined.

(** X15: when one of the three variables is unset, or set to the empty text, the
    module still loads, but no request succeeds and no request reaches the
    relay. *)
Theorem unset_variable_never_sends int environ now relay check E key body w :
  load_module int environ now relay check = Some E ->
  In key required_variables ->
  environ !! key = None \/ environ !! key = Some "" ->
  status (fst (post_api_contact E body w)) <> 200
  /\ outbox (snd (post_api_contact E body w)) = outbox w.
Proof.
  intros HL HK HE.
  assert (all [username (EMAIL_CONFIG E); password (EMAIL_CONFIG E);
               RECIPIENT_EMAIL E] = false) as HA.
  { destruct (load_module_fields _ _ _ _ _ _ HL)
      as (_ & _ & HU & HW & _ & HR).
    apply unconfigured_cases. rewrite HU, HW, HR.
    destruct HK as [<- | [<- | [<- | []]]]; destruct HE as [-> | ->]; auto. }
  destruct (post_outcome E body w) as [locs HV | f HV HC | f err HV HC HN
                                        | f answer HV HC HN HR];
    try (unfold configured in HC; congruence);
    cbn; split; solve [discriminate | reflexivity].
Qed.

Lemma unset_variable_never_sends_witness :
  exists E,
    Startup.booted (<["EMAIL_PASSWORD" := ""]> Startup.environ) = Some E
    /\ status (fst (post_api_contact E (Sample.body_of Sample.ada)
                      Sample.idle)) <> 200
    /\ outbox (snd (post_api_contact E (Sample.body_of Sample.ada)
                      Sample.idle)) = [].
Proof.
  eexists. split; [reflexivity |].
  apply (unset_variable_never_sends Startup.decimal
           (<["EMAIL_PASSWORD" := ""]> Startup.environ)
           "November 04, 2026 at 09:30 AM" Sample.relay_up Sample.has_at_sign
           _ "EMAIL_PASSWORD").
  - reflexivity.
  - right. left. reflexivity.
  - right. reflexivity.
Defined.
